(** * The CARE projection/prediction notebook

    A shallow embedding of [examples/projection/3_prediction.ipynb]: the
    notebook's code cells, top to bottom, as one program over the calls it
    makes into IPython, tifffile, numpy, matplotlib, pathlib and csbdeep,
    run against an arbitrary implementation of those libraries. *)

From Stdlib Require Import String Ascii List ZArith Lia.
From stdpp Require Import base option list gmap strings.

Set Default Proof Using "Type".

(** ** Python built-ins used by the notebook *)

Module Py.

(** Exceptions.  [LibraryError] stands for whatever a library call raises;
    [NameError] is what reading an unbound name raises; the others are
    raised by the built-ins below. *)
Inductive exn : Type :=
| TypeError
| ValueError
| FileExistsError
| FileNotFoundError
| NotADirectoryError
| NameError
| LibraryError (what : string).

(** [s.replace(old, new)] for [old] the empty string: [new] is inserted
    before every character and at the end. *)
Fixpoint interleave (new s : string) : string :=
  match s with
  | EmptyString => new
  | String c s' => new +:+ String c (interleave new s')
  end.

(** [s.replace(old, new)] for a non-empty [old]: left to right, every
    non-overlapping occurrence is replaced; [skip] counts the characters of
    the occurrence just replaced that are still to be dropped. *)
Fixpoint replace_from (skip : nat) (old new s : string) : string :=
  match s with
  | EmptyString => EmptyString
  | String c s' =>
      match skip with
      | S k => replace_from k old new s'
      | O =>
          if String.prefix old s
          then new +:+ replace_from (String.length old - 1) old new s'
          else String c (replace_from 0 old new s')
      end
  end.

(** [s.replace(old, new)] *)
Definition replace (s old new : string) : string :=
  match old with
  | EmptyString => interleave new s
  | _ => replace_from 0 old new s
  end.

(** [s] without the character [c]. *)
Fixpoint without (c : ascii) (s : string) : string :=
  match s with
  | EmptyString => EmptyString
  | String a s' => if Ascii.eqb a c then without c s' else String a (without c s')
  end.

(** [fmt % arg] with a single string argument: [%s] consumes the argument,
    [%%] is a literal percent sign.  [arg] is [None] once the argument has
    been used.  Other conversions do not occur in the notebook and are
    reported as [ValueError]. *)
Fixpoint percent_format (fmt : string) (arg : option string) : exn + string :=
  match fmt with
  | EmptyString =>
      match arg with
      | None => inr EmptyString
      | Some _ => inl TypeError          (* not all arguments converted *)
      end
  | String "%"%char (String "s"%char rest) =>
      match arg with
      | Some a =>
          match percent_format rest None with
          | inr r => inr (a +:+ r)
          | inl e => inl e
          end
      | None => inl TypeError            (* not enough arguments *)
      end
  | String "%"%char (String "%"%char rest) =>
      match percent_format rest arg with
      | inr r => inr (String "%"%char r)
      | inl e => inl e
      end
  | String "%"%char _ => inl ValueError
  | String c rest =>
      match percent_format rest arg with
      | inr r => inr (String c r)
      | inl e => inl e
      end
  end.

(** *** pathlib *)

(** What a path names in the file system. *)
Inductive node : Type := Dir | File.

#[global] Instance node_eq_dec : EqDecision node.
Proof. solve_decision. Defined.

(** The part of a path before its last ['/'], if it has one. *)
Fixpoint dirname (p : string) : option string :=
  match p with
  | EmptyString => None
  | String c p' =>
      match dirname p' with
      | Some d => Some (String c d)
      | None => if Ascii.eqb c "/" then Some EmptyString else None
      end
  end.

(** What is wrong with the directory that is to hold [p], if anything.  A
    path without a ['/'] is relative to the working directory, and a path
    with only a leading ['/'] is held by the root; both are taken to
    exist. *)
Definition parent_error (files : gmap string node) (p : string) : option exn :=
  match dirname p with
  | None | Some EmptyString => None
  | Some d =>
      match files !! d with
      | Some Dir => None
      | Some File => Some NotADirectoryError
      | None => Some FileNotFoundError
      end
  end.

(** [Path(p).mkdir(exist_ok=exist_ok)], with [parents] left at its default
    [False]: an existing path is an error unless [exist_ok] is set and the
    path is a directory; a missing parent is an error. *)
Definition mkdir (p : string) (exist_ok : bool) (files : gmap string node)
  : exn + gmap string node :=
  match files !! p with
  | Some Dir => if exist_ok then inr files else inl FileExistsError
  | Some File => inl FileExistsError
  | None =>
      match parent_error files p with
      | None => inr (<[p := Dir]> files)
      | Some e => inl e
      end
  end.

End Py.


(** ** The libraries the notebook calls *)

(** A numpy array is a mutable object: the notebook holds references to
    arrays, the pixels live in the store. *)
Abbreviation ndarray := nat (only parsing).

(** Literals passed through to the libraries. *)
Inductive pynum : Type :=
| PyInt (z : Z)
| PyFloat (literal : string).

(** An argument of [print]. *)
Inductive printable : Type :=
| PStr (s : string)
| PTuple (t : list nat).

Section Notebook.

(** [model]: a [ProjectionCARE] object; [config]: a csbdeep [Config];
    [buffer]: the contents of an array (shape, dtype and pixels); [ext]:
    everything else the libraries can see or change (network, GPU, open
    figures, file contents, standard output). *)
Context {model config buffer ext : Type}.

Local Open Scope string_scope.

Record world : Type := World {
  files : gmap string Py.node;
  arrays : gmap nat buffer;
  ext_state : ext
}.

(** How a call ends: it returns a value or raises; either way it leaves a
    world behind. *)
Inductive outcome (R : Type) : Type :=
| Returned (r : R) (w : world)
| Raised (e : Py.exn) (w : world).
Arguments Returned {R} r w.
Arguments Raised {R} e w.

Definition world_of {R} (o : outcome R) : world :=
  match o with
  | Returned _ w => w
  | Raised _ w => w
  end.

Definition value_of {R} (o : outcome R) : option R :=
  match o with
  | Returned r _ => Some r
  | Raised _ _ => None
  end.

Definition completed {R} (o : outcome R) : Prop :=
  match o with
  | Returned _ _ => True
  | Raised _ _ => False
  end.

(** The calls the notebook makes, by the name it uses for them.  Attribute
    reads on library objects ([x.shape], [model.proj_params.axis],
    [model.name]) are calls too: what they yield is up to the library.  So
    are the import statements and the IPython magics: [line_magic] is a
    [%name args] line; [time_report] and [time_failed] are what [%%time]
    does once the cell under it has returned, and once it has raised. *)
Inductive call : Type -> Type :=
| import_from (module : string) (names : list string) : call unit
| import_as (module alias : string) : call unit
| line_magic (name args : string) : call unit
| time_report : call unit
| time_failed (e : Py.exn) : call unit
| download_and_extract_zip_file (url targetdir : string) : call unit
| imread (file : string) : call ndarray
| shape (a : ndarray) : call (list nat)
| print (args : list printable) : call unit
| plt_figure (figsize : Z * Z) : call unit
| np_broadcast_to (a : ndarray) (shp : list nat) : call ndarray
| np_stack (arrs : list ndarray) : call ndarray
| plot_some (arr : ndarray) (title_list : list (list string)) (pmin pmax : pynum) : call unit
| ProjectionCARE (cfg : option config) (name basedir : string) : call model
| predict (m : model) (img : ndarray) (axes : string) (n_tiles : option (list nat)) : call ndarray
| Path_mkdir (path : string) (exist_ok : bool) : call unit
| proj_params_axis (m : model) : call string
| model_name (m : model) : call string
| save_tiff_imagej_compatible (file : string) (img : ndarray) (axes : string) : call unit.

(** An implementation of the external libraries: one state transformer per
    function.  [Path.mkdir] is not among them: it is pathlib's, modelled in
    [Py.mkdir]. *)
Record Library : Type := {
  lib_import_from : string -> list string -> world -> outcome unit;
  lib_import_as : string -> string -> world -> outcome unit;
  lib_line_magic : string -> string -> world -> outcome unit;
  lib_time_report : world -> outcome unit;
  lib_time_failed : Py.exn -> world -> outcome unit;
  lib_download : string -> string -> world -> outcome unit;
  lib_imread : string -> world -> outcome ndarray;
  lib_shape : ndarray -> world -> outcome (list nat);
  lib_print : list printable -> world -> outcome unit;
  lib_figure : Z * Z -> world -> outcome unit;
  lib_broadcast_to : ndarray -> list nat -> world -> outcome ndarray;
  lib_stack : list ndarray -> world -> outcome ndarray;
  lib_plot_some : ndarray -> list (list string) -> pynum -> pynum -> world -> outcome unit;
  lib_ProjectionCARE : option config -> string -> string -> world -> outcome model;
  lib_predict : model -> ndarray -> string -> option (list nat) -> world -> outcome ndarray;
  lib_axis : model -> world -> outcome string;
  lib_name : model -> world -> outcome string;
  lib_save_tiff : string -> ndarray -> string -> world -> outcome unit
}.

Definition path_mkdir (p : string) (exist_ok : bool) (w : world) : outcome unit :=
  match Py.mkdir p exist_ok (files w) with
  | inr fs => Returned tt (World fs (arrays w) (ext_state w))
  | inl e => Raised e w
  end.

Definition handle (lib : Library) {R} (c : call R) : world -> outcome R :=
  match c in call R return world -> outcome R with
  | import_from module names => lib_import_from lib module names
  | import_as module alias => lib_import_as lib module alias
  | line_magic name args => lib_line_magic lib name args
  | time_report => lib_time_report lib
  | time_failed e => lib_time_failed lib e
  | download_and_extract_zip_file url dir => lib_download lib url dir
  | imread f => lib_imread lib f
  | shape a => lib_shape lib a
  | print args => lib_print lib args
  | plt_figure sz => lib_figure lib sz
  | np_broadcast_to a shp => lib_broadcast_to lib a shp
  | np_stack arrs => lib_stack lib arrs
  | plot_some a titles pmin pmax => lib_plot_some lib a titles pmin pmax
  | ProjectionCARE cfg name basedir => lib_ProjectionCARE lib cfg name basedir
  | predict m x axes n_tiles => lib_predict lib m x axes n_tiles
  | Path_mkdir p ok => path_mkdir p ok
  | proj_params_axis m => lib_axis lib m
  | model_name m => lib_name lib m
  | save_tiff_imagej_compatible f img axes => lib_save_tiff lib f img axes
  end.

(** ** Programs and runs *)

(** A piece of notebook code: it returns, raises, or makes a call and goes
    on with the value the call returned; [Attempt p k] runs [p] and goes
    on with [k], which is told whether [p] returned or raised. *)
Inductive prog (A : Type) : Type :=
| Ret (a : A)
| Throw (e : Py.exn)
| Vis {R : Type} (c : call R) (k : R -> prog A)
| Attempt {B : Type} (p : prog B) (k : Py.exn + B -> prog A).
Arguments Ret {A} a.
Arguments Throw {A} e.
Arguments Vis {A R} c k.
Arguments Attempt {A B} p k.

Fixpoint bind {A B} (p : prog A) (f : A -> prog B) : prog B :=
  match p with
  | Ret a => f a
  | Throw e => Throw e
  | Vis c k => Vis c (fun r => bind (k r) f)
  | Attempt q k => Attempt q (fun o => bind (k o) f)
  end.

Definition do {R} (c : call R) : prog R := Vis c Ret.

(** One call of a run: the world it started in, the call, how it ended. *)
Record event : Type := Event {
  ev_ret : Type;
  ev_pre : world;
  ev_call : call ev_ret;
  ev_out : outcome ev_ret
}.
Arguments Event {ev_ret} ev_pre ev_call ev_out.

(** Running a program: calls are made in order; an exception ends the run
    (a notebook stops at the first failing cell) unless it is raised under
    an [Attempt], which hands it to the code that follows. *)
Fixpoint run (lib : Library) {A} (p : prog A) (w : world) : list event * outcome A :=
  match p with
  | Ret a => ([], Returned a w)
  | Throw e => ([], Raised e w)
  | Vis c k =>
      match handle lib c w with
      | Returned r w' =>
          let '(t, o) := run lib (k r) w' in
          (Event w c (Returned r w') :: t, o)
      | Raised e w' => ([Event w c (Raised e w')], Raised e w')
      end
  | Attempt p k =>
      let '(t, o) := run lib p w in
      match o with
      | Returned b w' =>
          let '(t', o') := run lib (k (inr b)) w' in ((t ++ t')%list, o')
      | Raised e w' =>
          let '(t', o') := run lib (k (inl e)) w' in ((t ++ t')%list, o')
      end
  end.


Notation "x <- p ;; q" := (bind p (fun x => q))
  (at level 100, p at next level, right associativity).
Notation "p ;;; q" := (bind p (fun _ => q))
  (at level 100, q at level 200, right associativity).

(** ** The notebook, cell by cell *)

(** The first code cell: imports and display settings. *)
Definition cell_imports : prog unit :=
  do (import_from "__future__"
        ["print_function"; "unicode_literals"; "absolute_import"; "division"]) ;;;
  do (import_as "numpy" "np") ;;;
  do (import_as "matplotlib.pyplot" "plt") ;;;
  do (line_magic "matplotlib" "inline") ;;;
  do (line_magic "config" "InlineBackend.figure_format = 'retina'") ;;;
  do (import_from "tifffile" ["imread"]) ;;;
  do (import_from "csbdeep.utils" ["Path"; "download_and_extract_zip_file"; "plot_some"]) ;;;
  do (import_from "csbdeep.io" ["save_tiff_imagej_compatible"]) ;;;
  do (import_from "csbdeep.models" ["ProjectionCARE"]).

(** A cell under [%%time].  IPython runs the cell; when it has returned,
    the timings are reported; when it has raised, the exception goes to
    IPython instead of ending the cell, and it is IPython that decides what
    becomes of it.  (IPython's [time] magic reads
    [except: self.shell.showtraceback(); return]: it shows the traceback
    and returns, so that the notebook goes on with the next cell, the names
    the cell was to bind left as they were.)  [None] is a cell that bound
    nothing. *)
Definition timed {A} (cell : prog A) : prog (option A) :=
  Attempt cell (fun o =>
    match o with
    | inr a => do time_report ;;; Ret (Some a)
    | inl e => do (time_failed e) ;;; Ret None
    end).

Definition url : string := "http://csbdeep.bioimagecomputing.com/example_data/flywing.zip".

(** Download example data *)
Definition cell_download : prog unit :=
  do (download_and_extract_zip_file url "data").

Definition titles_pair : list (list string) :=
  [["low-SNR stack (maximum projection)"; "high-SNR (surface extracted with PreMosa)"]].

(** Raw low-SNR 3D stack and associated high-SNR 2D surface projection:
    binds [y], [x] and [axes]. *)
Definition cell_load : prog (ndarray * ndarray * string) :=
  y <- do (imread "data/flywing/GT/session_7_P17.tif") ;;
  x <- do (imread "data/flywing/low_C3/session_7_P17.tif") ;;
  let axes := "ZYX" in
  sx <- do (shape x) ;;
  do (print [PStr "source image size ="; PTuple sx]) ;;;
  do (print [PStr "source image axes ="; PStr axes]) ;;;
  sy <- do (shape y) ;;
  do (print [PStr "target image size ="; PTuple sy]) ;;;
  do (plt_figure (16, 10)%Z) ;;;
  sx <- do (shape x) ;;
  by_ <- do (np_broadcast_to y sx) ;;
  stacked <- do (np_stack [x; by_]) ;;
  do (plot_some stacked titles_pair (PyInt 2) (PyFloat "99.8")) ;;;
  Ret (y, x, axes).

(** CARE model: binds [model]. *)
Definition cell_model : prog model :=
  do (ProjectionCARE None "my_model" "models").

(** Apply CARE network to raw image: binds [restored]. *)
Definition cell_predict (m : model) (x : ndarray) (axes : string) : prog ndarray :=
  do (predict m x axes None).

(** The same with [n_tiles] set: binds [restored] again. *)
Definition cell_predict_tiled (m : model) (x : ndarray) (axes : string) : prog ndarray :=
  do (predict m x axes (Some [1; 4; 4])).

(** Save restored image: binds [axes_restored].  [restored] is [None]
    when the name is unbound, which shows when the arguments of the export
    are evaluated: the file name first, then [restored]. *)
Definition cell_save_in (m : model) (axes : string) (restored : option ndarray)
  : prog string :=
  do (Path_mkdir "results" true) ;;;
  axis <- do (proj_params_axis m) ;;
  let axes_restored := Py.replace axes axis "" in
  name <- do (model_name m) ;;
  match Py.percent_format "results/%s_denoising+projection_example.tif" (Some name) with
  | inl e => Throw e
  | inr file =>
      match restored with
      | None => Throw Py.NameError
      | Some restored =>
          do (save_tiff_imagej_compatible file restored axes_restored) ;;;
          Ret axes_restored
      end
  end.

(** The same cell with [restored] bound. *)
Definition cell_save (m : model) (axes : string) (restored : ndarray) : prog string :=
  cell_save_in m axes (Some restored).

Definition titles_triple : list (list string) :=
  [["low-SNR stack (maximum projection)"; "CARE"; "high-SNR (surface extracted with PreMosa)"]].

(** Raw low/high-SNR pair and denoised+projected image via CARE network *)
Definition cell_plot (x y restored : ndarray) : prog unit :=
  do (plt_figure (16, 10)%Z) ;;;
  sx <- do (shape x) ;;
  br <- do (np_broadcast_to restored sx) ;;
  sx' <- do (shape x) ;;
  by_ <- do (np_broadcast_to y sx') ;;
  stacked <- do (np_stack [x; br; by_]) ;;
  do (plot_some stacked titles_triple (PyInt 2) (PyFloat "99.8")).

(** The names the notebook has bound when it ends. *)
Record namespace : Type := Namespace {
  ns_y : ndarray;
  ns_x : ndarray;
  ns_axes : string;
  ns_model : model;
  ns_restored : ndarray;
  ns_axes_restored : string
}.

(** All cells, top to bottom.  The two restoration cells are under
    [%%time]: [restored] is bound by the last of them that returned. *)
Definition notebook : prog namespace :=
  cell_imports ;;;
  cell_download ;;;
  yxa <- cell_load ;;
  let '(y, x, axes) := yxa in
  m <- cell_model ;;
  first <- timed (cell_predict m x axes) ;;
  second <- timed (cell_predict_tiled m x axes) ;;
  let restored := match second with Some r => Some r | None => first end in
  axes_restored <- cell_save_in m axes restored ;;
  match restored with
  | None => Throw Py.NameError
  | Some restored =>
      cell_plot x y restored ;;;
      Ret (Namespace y x axes m restored axes_restored)
  end.


(** ** Reading a run

    What the calls of a run were made with and what they returned, call by
    call, in the order of the run. *)

Definition trace_of {A} (r : list event * outcome A) : list event := fst r.
Definition result_of {A} (r : list event * outcome A) : outcome A := snd r.

(** The steps the notebook is described by. *)
Inductive stage : Type :=
| Download
| LoadModel
| PredictTiled
| SaveTiff
| PlotResult.

(** The stage a call carries out, if any: the download into ['data'], the
    construction of the model, the [predict] call that sets [n_tiles], the
    TIFF export, and the figure that has a ['CARE'] panel. *)
Definition stage_of (e : event) : option stage :=
  match ev_call e with
  | download_and_extract_zip_file _ dir =>
      if String.eqb dir "data" then Some Download else None
  | ProjectionCARE _ _ _ => Some LoadModel
  | predict _ _ _ (Some _) => Some PredictTiled
  | save_tiff_imagej_compatible _ _ _ => Some SaveTiff
  | plot_some _ titles _ _ =>
      if existsb (existsb (String.eqb "CARE")) titles then Some PlotResult else None
  | _ => None
  end.

(** The calls of a run that [sel] picks, as [sel] reports them. *)
Fixpoint collect {X} (sel : event -> option X) (t : list event) : list X :=
  match t with
  | [] => []
  | e :: t' =>
      match sel e with
      | Some x => x :: collect sel t'
      | None => collect sel t'
      end
  end.

Definition listed_order : list stage :=
  [Download; LoadModel; PredictTiled; SaveTiff; PlotResult].

Definition stages (t : list event) : list stage := collect stage_of t.

(** [imread] calls: file, array returned, world left behind. *)
Definition loaded (t : list event) : list (string * option ndarray * world) :=
  collect (fun e =>
    match ev_call e in call R return outcome R -> option _ with
    | imread f => fun o => Some (f, value_of o, world_of o)
    | _ => fun _ => None
    end (ev_out e)) t.

(** Model constructions: arguments and the model returned. *)
Definition constructed (t : list event) : list (option config * string * string * option model) :=
  collect (fun e =>
    match ev_call e in call R return outcome R -> option _ with
    | ProjectionCARE cfg name basedir => fun o => Some (cfg, name, basedir, value_of o)
    | _ => fun _ => None
    end (ev_out e)) t.

(** The models that calls were made on. *)
Definition models_used (t : list event) : list model :=
  collect (fun e =>
    match ev_call e with
    | predict m _ _ _ => Some m
    | proj_params_axis m => Some m
    | model_name m => Some m
    | _ => None
    end) t.

(** [predict] calls: arguments and the array returned. *)
Definition predicted (t : list event)
  : list (model * ndarray * string * option (list nat) * option ndarray) :=
  collect (fun e =>
    match ev_call e in call R return outcome R -> option _ with
    | predict m x axes n_tiles => fun o => Some (m, x, axes, n_tiles, value_of o)
    | _ => fun _ => None
    end (ev_out e)) t.

(** Reads of [model.proj_params.axis] and of [model.name]. *)
Definition axes_read (t : list event) : list (model * option string) :=
  collect (fun e =>
    match ev_call e in call R return outcome R -> option _ with
    | proj_params_axis m => fun o => Some (m, value_of o)
    | _ => fun _ => None
    end (ev_out e)) t.

Definition names_read (t : list event) : list (model * option string) :=
  collect (fun e =>
    match ev_call e in call R return outcome R -> option _ with
    | model_name m => fun o => Some (m, value_of o)
    | _ => fun _ => None
    end (ev_out e)) t.

(** [mkdir] calls: the world before, the arguments, how the call ended. *)
Definition mkdirs (t : list event) : list (world * string * bool * outcome unit) :=
  collect (fun e =>
    match ev_call e in call R return outcome R -> option _ with
    | Path_mkdir p ok => fun o => Some (ev_pre e, p, ok, o)
    | _ => fun _ => None
    end (ev_out e)) t.

(** [save_tiff_imagej_compatible] calls: file, image, axes. *)
Definition saved (t : list event) : list (string * ndarray * string) :=
  collect (fun e =>
    match ev_call e with
    | save_tiff_imagej_compatible f img axes => Some (f, img, axes)
    | _ => None
    end) t.

(** [np.broadcast_to], [np.stack] and [plot_some] calls. *)
Definition broadcasts (t : list event) : list (ndarray * list nat * option ndarray) :=
  collect (fun e =>
    match ev_call e in call R return outcome R -> option _ with
    | np_broadcast_to a shp => fun o => Some (a, shp, value_of o)
    | _ => fun _ => None
    end (ev_out e)) t.

Definition stacks (t : list event) : list (list ndarray * option ndarray) :=
  collect (fun e =>
    match ev_call e in call R return outcome R -> option _ with
    | np_stack arrs => fun o => Some (arrs, value_of o)
    | _ => fun _ => None
    end (ev_out e)) t.

Definition plotted (t : list event) : list (ndarray * list (list string)) :=
  collect (fun e =>
    match ev_call e with
    | plot_some a titles _ _ => Some (a, titles)
    | _ => None
    end) t.

(** The restoration step as the description has it: the library's
    [predict] on these arguments, and nothing else. *)
Definition library_predict (lib : Library) (m : model) (x : ndarray) (axes : string)
    (n_tiles : option (list nat)) (w : world) : list event * outcome ndarray :=
  let o := lib_predict lib m x axes n_tiles w in
  ([Event w (predict m x axes n_tiles) o], o).


(** [download_and_extract_zip_file] calls: arguments and whether the call
    returned. *)
Definition downloads (t : list event) : list (string * string * option unit) :=
  collect (fun e =>
    match ev_call e in call R return outcome R -> option _ with
    | download_and_extract_zip_file u dir => fun o => Some (u, dir, value_of o)
    | _ => fun _ => None
    end (ev_out e)) t.

(** Reads of [a.shape]: the array and the shape read. *)
Definition shapes_read (t : list event) : list (ndarray * option (list nat)) :=
  collect (fun e =>
    match ev_call e in call R return outcome R -> option _ with
    | shape a => fun o => Some (a, value_of o)
    | _ => fun _ => None
    end (ev_out e)) t.

(** What was handed to [print], line by line. *)
Definition printed (t : list event) : list (list printable) :=
  collect (fun e =>
    match ev_call e with
    | print args => Some args
    | _ => None
    end) t.

(** The exception a call raised, with the world it left. *)
Definition raised (e : event) : option (Py.exn * world) :=
  match ev_out e with
  | Returned _ _ => None
  | Raised x w => Some (x, w)
  end.

(** Model constructions again, with the world each was made in. *)
Definition constructions (t : list event)
  : list (world * option config * string * string * option model) :=
  collect (fun e =>
    match ev_call e in call R return outcome R -> option _ with
    | ProjectionCARE cfg name basedir =>
        fun o => Some (ev_pre e, cfg, name, basedir, value_of o)
    | _ => fun _ => None
    end (ev_out e)) t.

(** What [%%time] was left with, cell by cell: [None] for a cell that
    returned, the exception for a cell that raised. *)
Definition timings (t : list event) : list (option Py.exn) :=
  collect (fun e =>
    match ev_call e with
    | time_report => Some None
    | time_failed x => Some (Some x)
    | _ => None
    end) t.

(** Whether a call belongs to the first code cell. *)
Definition is_setup (e : event) : bool :=
  match ev_call e with
  | import_from _ _ | import_as _ _ | line_magic _ _ => true
  | _ => false
  end.

(** A run from its first call past the first code cell. *)
Fixpoint past_setup (t : list event) : list event :=
  match t with
  | [] => []
  | e :: t' => if is_setup e then past_setup t' else t
  end.


End Notebook.

Arguments Returned {buffer ext R} r w.
Arguments Raised {buffer ext R} e w.
Arguments Ret {model config A} a.
Arguments Throw {model config A} e.
Arguments Vis {model config A R} c k.
Arguments Event {model config buffer ext ev_ret} ev_pre ev_call ev_out.

(** ** Loading a trained model

    [ProjectionCARE] is csbdeep's and not part of the notebook.  What the
    notebook relies on is in its own text: "Load trained model (located in
    base directory models with name my_model) from disk.  The configuration
    was saved during training and is automatically loaded when
    ProjectionCARE is initialized with config=None." *)

Section PretrainedModel.

Context {config weights buffer ext : Type}.

(** A model as the constructor returns it. *)
Record pretrained : Type := Pretrained {
  pm_name : string;
  pm_basedir : string;
  pm_config : config;
  pm_weights : weights
}.

(** What training has left on disk under [basedir/name], if anything. *)
Variable training_output : ext -> string -> string -> option (config * weights).

(** Modelled from the spec: the constructor of csbdeep's [ProjectionCARE],
    which is not under src/.  With [config=None] it loads, from disk, the
    configuration and the weights that training saved under [basedir/name],
    and fails when there are none; given a configuration, it is whatever
    the library makes of it. *)
Definition ProjectionCARE_from_disk (lib : @Library pretrained config buffer ext)
    (cfg : option config) (name basedir : string) (w : @world buffer ext)
  : @outcome buffer ext pretrained :=
  match cfg with
  | None =>
      match training_output (ext_state w) basedir name with
      | Some (c, wts) => Returned (Pretrained name basedir c wts) w
      | None => Raised Py.FileNotFoundError w
      end
  | Some _ => lib_ProjectionCARE lib cfg name basedir w
  end.

(** A library whose [ProjectionCARE] is the one above. *)
Definition with_pretrained_models (lib : @Library pretrained config buffer ext)
  : @Library pretrained config buffer ext := {|
  lib_import_from := lib_import_from lib;
  lib_import_as := lib_import_as lib;
  lib_line_magic := lib_line_magic lib;
  lib_time_report := lib_time_report lib;
  lib_time_failed := lib_time_failed lib;
  lib_download := lib_download lib;
  lib_imread := lib_imread lib;
  lib_shape := lib_shape lib;
  lib_print := lib_print lib;
  lib_figure := lib_figure lib;
  lib_broadcast_to := lib_broadcast_to lib;
  lib_stack := lib_stack lib;
  lib_plot_some := lib_plot_some lib;
  lib_ProjectionCARE := ProjectionCARE_from_disk lib;
  lib_predict := lib_predict lib;
  lib_axis := lib_axis lib;
  lib_name := lib_name lib;
  lib_save_tiff := lib_save_tiff lib
|}.

End PretrainedModel.

Arguments pretrained : clear implicits.
Arguments Pretrained {config weights} pm_name pm_basedir pm_config pm_weights.

(** ** A stand-in library

    A small implementation of the library interface, used to run the
    notebook on concrete data.  Arrays are a shape and a list of pixels;
    the projection axis is a parameter.  IPython's part is as IPython has
    it: [%%time] reports an exception of its cell and returns. *)

Module Stub.

Record pixels : Type := Pixels { shp : list nat; pix : list Z }.

Abbreviation LibraryOf M C := (@Library M C pixels unit).
Abbreviation world := (@world pixels unit).
Abbreviation outcome := (@outcome pixels unit).
Abbreviation Library := (LibraryOf string unit).

(** A new array, at an address no array has. *)
Definition alloc (b : pixels) (w : world) : outcome nat :=
  let a := fresh (dom (arrays w)) in
  Returned a (World (files w) (<[a := b]> (arrays w)) tt).

Definition with_array {R} (a : nat) (w : world) (f : pixels -> outcome R) : outcome R :=
  match arrays w !! a with
  | Some b => f b
  | None => Raised (Py.LibraryError "no such array") w
  end.

Definition sample (f : string) : pixels :=
  if String.eqb f "data/flywing/GT/session_7_P17.tif"
  then Pixels [2; 2] [5; 6; 7; 8]%Z
  else Pixels [2; 2; 2] [1; 2; 3; 4; 5; 6; 7; 8]%Z.

(** The stand-in for any type of model: [make] builds the model from its
    name and base directory, [name_of] reads its name. *)
Definition lib_of {M C : Type} (make : string -> string -> M) (name_of : M -> string)
    (axis : string) : LibraryOf M C := {|
  lib_import_from := fun _ _ w => Returned tt w;
  lib_import_as := fun _ _ w => Returned tt w;
  lib_line_magic := fun _ _ w => Returned tt w;
  lib_time_report := fun w => Returned tt w;
  lib_time_failed := fun _ w => Returned tt w;
  lib_download := fun _ dir w =>
    Returned tt (World (<[dir := Py.Dir]> (files w)) (arrays w) tt);
  lib_imread := fun f w => alloc (sample f) w;
  lib_shape := fun a w => with_array a w (fun b => Returned (shp b) w);
  lib_print := fun _ w => Returned tt w;
  lib_figure := fun _ w => Returned tt w;
  lib_broadcast_to := fun a s w =>
    with_array a w (fun b => alloc (Pixels s (mjoin (replicate (hd 1 s) (pix b)))) w);
  lib_stack := fun arrs w =>
    let bs := omap (fun a => arrays w !! a) arrs in
    alloc (Pixels (length bs :: default [] (shp <$> head bs)) (mjoin (pix <$> bs))) w;
  lib_plot_some := fun _ _ _ _ w => Returned tt w;
  lib_ProjectionCARE := fun _ name basedir w => Returned (make name basedir) w;
  lib_predict := fun _ x _ _ w =>
    with_array x w (fun b =>
      alloc (Pixels (tail (shp b)) (take (length (pix b) / hd 1 (shp b)) (pix b))) w);
  lib_axis := fun _ w => Returned axis w;
  lib_name := fun m w => Returned (name_of m) w;
  lib_save_tiff := fun f _ _ w =>
    Returned tt (World (<[f := Py.File]> (files w)) (arrays w) tt)
|}.

(** The model known by its name. *)
Definition lib (axis : string) : Library := lib_of (fun name _ => name) id axis.

(** [l] with another [predict]. *)
Definition set_predict {M C : Type} (l : LibraryOf M C)
    (f : M -> nat -> string -> option (list nat) -> world -> outcome nat)
  : LibraryOf M C := {|
  lib_import_from := lib_import_from l;
  lib_import_as := lib_import_as l;
  lib_line_magic := lib_line_magic l;
  lib_time_report := lib_time_report l;
  lib_time_failed := lib_time_failed l;
  lib_download := lib_download l;
  lib_imread := lib_imread l;
  lib_shape := lib_shape l;
  lib_print := lib_print l;
  lib_figure := lib_figure l;
  lib_broadcast_to := lib_broadcast_to l;
  lib_stack := lib_stack l;
  lib_plot_some := lib_plot_some l;
  lib_ProjectionCARE := lib_ProjectionCARE l;
  lib_predict := f;
  lib_axis := lib_axis l;
  lib_name := lib_name l;
  lib_save_tiff := lib_save_tiff l
|}.


(** A library whose [predict] runs out of memory for the [n_tiles] that
    [fails] picks. *)
Definition out_of_memory (fails : option (list nat) -> bool) (axis : string) : Library :=
  set_predict (lib axis) (fun m x axes n_tiles w =>
    if fails n_tiles
    then Raised (Py.LibraryError "ResourceExhaustedError") w
    else lib_predict (lib axis) m x axes n_tiles w).



(** A disk on which training has left [models/my_model]. *)
Definition trained (_ : unit) (basedir name : string) : option (string * string) :=
  if String.eqb basedir "models" && String.eqb name "my_model"
  then Some ("config.json", "weights_best.h5")%string
  else None.

(** A disk without it. *)
Definition untrained (_ : unit) (_ _ : string) : option (string * string) := None.

(** The stand-in for models with a configuration and weights. *)
Definition lib_pretrained (axis : string)
  : LibraryOf (pretrained string string) string :=
  lib_of (fun name basedir => Pretrained name basedir "" "")%string pm_name axis.

Definition w0 : world := World ∅ ∅ tt.

End Stub.

(** * The built-ins on the notebook's literals *)

Example replace_projection_axis : Py.replace "ZYX" "Z" "" = "YX"%string.
Proof. reflexivity. Qed.

Example replace_absent : Py.replace "ZYX" "T" "" = "ZYX"%string.
Proof. reflexivity. Qed.

Example replace_two_axes : Py.replace "ZYX" "ZY" "" = "X"%string.
Proof. reflexivity. Qed.

Example replace_empty_pattern : Py.replace "ZYX" "" "-" = "-Z-Y-X-"%string.
Proof. reflexivity. Qed.

Example replace_does_not_overlap : Py.replace "aaa" "aa" "b" = "ba"%string.
Proof. reflexivity. Qed.

Example format_my_model :
  Py.percent_format "results/%s_denoising+projection_example.tif" (Some "my_model"%string)
  = inr "results/my_model_denoising+projection_example.tif"%string.
Proof. reflexivity. Qed.

Example format_needs_its_argument :
  Py.percent_format "results/%s.tif" None = inl Py.TypeError.
Proof. reflexivity. Qed.

Example dirname_of_paths :
  Py.dirname "a/b/c" = Some "a/b"%string /\ Py.dirname "results" = None.
Proof. split; reflexivity. Qed.

Example mkdir_needs_its_parent :
  Py.mkdir "results/run1" true ∅ = inl Py.FileNotFoundError
  /\ Py.mkdir "results/run1" true {["results"%string := Py.File]} = inl Py.NotADirectoryError
  /\ Py.mkdir "results" false {["results"%string := Py.Dir]} = inl Py.FileExistsError
  /\ Py.mkdir "results" true {["results"%string := Py.File]} = inl Py.FileExistsError.
Proof. repeat split; vm_compute; reflexivity. Qed.

Ltac case_chars :=
  repeat match goal with
  | |- context [ascii_dec ?a ?b] => destruct (ascii_dec a b); [subst|]
  end.

(** Removing [axis] from ['ZYX'] leaves one axis fewer exactly when [axis]
    is one of the three letters. *)
Lemma replace_one_fewer_iff (axis : string) :
  String.length (Py.replace "ZYX" axis "") + 1 = String.length "ZYX"
  <-> axis ∈ ["Z"; "Y"; "X"]%string.
Proof.
  split.
  - destruct axis as [|c1 [|c2 [|c3 [|c4 rest]]]]; cbn.
    all: case_chars; cbn; case_chars; cbn; case_chars; cbn; intros; try lia.
    all: set_solver.
  - intros H. repeat (apply elem_of_cons in H; destruct H as [->|H]); try reflexivity.
    by apply elem_of_nil in H.
Qed.

(** * More on the built-ins *)

(** Replacing by nothing never makes a string longer. *)
Lemma replace_from_removal_bound (old s : string) (skip : nat) :
  String.length (Py.replace_from skip old "" s) <= String.length s.
Proof.
  revert skip. induction s as [|c s IH]; intros skip; cbn [Py.replace_from String.length].
  - lia.
  - destruct skip as [|k].
    + destruct (String.prefix old (String c s)).
      * change ("" +:+ ?x)%string with x. specialize (IH (String.length old - 1)). lia.
      * cbn [String.length]. specialize (IH 0). lia.
    + specialize (IH k). lia.
Qed.

Lemma interleave_nothing (s : string) : Py.interleave "" s = s.
Proof. induction s as [|c s IH]; cbn; [done | by rewrite IH]. Qed.

Lemma replace_removal_bound (s old : string) :
  String.length (Py.replace s old "") <= String.length s.
Proof.
  destruct old as [|c old]; cbn [Py.replace].
  - by rewrite interleave_nothing.
  - apply replace_from_removal_bound.
Qed.

(** Replacing a single character by nothing drops it wherever it occurs
    and keeps the rest in order. *)
Lemma replace_letter_is_without (s : string) (c : ascii) :
  Py.replace s (String c "") "" = Py.without c s.
Proof.
  cbn [Py.replace]. induction s as [|a s IH]; cbn; [done|].
  destruct (ascii_dec c a) as [->|Hne].
  - rewrite Ascii.eqb_refl. destruct s; cbn in *; exact IH.
  - destruct (Ascii.eqb_spec a c) as [->|_]; [done|]. by rewrite IH.
Qed.

Ltac by_chars :=
  repeat match goal with
  | |- context [ascii_dec ?a ?b] => destruct (ascii_dec a b); [subst|]
  end.

(** A pattern that is no part of ['ZYX'] leaves it as it is. *)
Lemma replace_foreign (axis : string) :
  axis ∉ ["Z"; "Y"; "X"; "ZY"; "YX"; "ZYX"]%string -> Py.replace "ZYX" axis "" = "ZYX"%string.
Proof.
  intros Hnot.
  destruct axis as [|c1 [|c2 [|c3 [|c4 rest]]]]; cbn.
  all: by_chars; cbn; by_chars; cbn; by_chars; cbn; try reflexivity.
  all: exfalso; apply Hnot; set_solver.
Qed.

(** * Properties of runs *)

Section RunFacts.

Context {model config buffer ext : Type}.
Variable lib : @Library model config buffer ext.

Local Open Scope string_scope.

(** ** Runs in general *)

(** A program followed by another: the calls of the first, then, if it
    returned, the calls of the second. *)
Lemma run_bind {A B} (p : prog A) (f : A -> prog B) (w : world) :
  run lib (bind p f) w =
  match run lib p w with
  | (t, Returned a w') => let '(t', o) := run lib (f a) w' in ((t ++ t')%list, o)
  | (t, Raised e w') => (t, Raised e w')
  end.
Proof.
  revert B f w. induction p as [A a|A e|A R c k IH|A C q IHq k IH]; intros B f w; cbn [bind run].
  - by destruct (run lib (f a) w).
  - done.
  - destruct (handle lib c w) as [r w'|e w']; [|done].
    rewrite IH. destruct (run lib (k r) w') as [t [a w''|e w'']]; [|done].
    by destruct (run lib (f a) w'').
  - destruct (run lib q w) as [t [b w'|e w']].
    + rewrite IH. destruct (run lib (k (inr b)) w') as [t' [a w''|e w'']]; [|done].
      destruct (run lib (f a) w''). by rewrite app_assoc.
    + rewrite IH. destruct (run lib (k (inl e)) w') as [t' [a w''|e' w'']]; [|done].
      destruct (run lib (f a) w''). by rewrite app_assoc.
Qed.




(** ** Making the directory *)


Lemma path_mkdir_creates (p : string) (ok : bool) (w w' : @world buffer ext) :
  path_mkdir p ok w = Returned tt w' -> files w' !! p = Some Py.Dir.
Proof.
  unfold path_mkdir, Py.mkdir.
  destruct (files w !! p) as [[]|] eqn:Hp; [destruct ok| |destruct (Py.parent_error _ _)];
    intros; simplify_eq; cbn; [done | apply lookup_insert_eq].
Qed.

Lemma path_mkdir_on_file (p : string) (ok : bool) (w : @world buffer ext) :
  files w !! p = Some Py.File -> path_mkdir p ok w = Raised Py.FileExistsError w.
Proof. intros Hfile. unfold path_mkdir, Py.mkdir. by rewrite Hfile. Qed.

Lemma format_results_path (name : string) :
  Py.percent_format "results/%s_denoising+projection_example.tif" (Some name)
  = inr ("results/" +:+ name +:+ "_denoising+projection_example.tif").
Proof. reflexivity. Qed.

End RunFacts.

Ltac next_call :=
  match goal with
  | |- context [handle ?l ?c ?w] =>
      let E := fresh "E" in
      destruct (handle l c w) as [? ?|? ?] eqn:E
  end.

(** Every way the run in the goal can go, one goal each: call after call
    returns or raises. *)
Ltac all_runs :=
  match goal with
  | |- context [run ?l ?p ?w] =>
      pattern (run l p w);
      let P := fresh "P" in
      match goal with |- ?Q _ => set (P := Q) end;
      unfold notebook, cell_imports, cell_download, cell_load, cell_model, timed,
        cell_predict, cell_predict_tiled, cell_save, cell_save_in, cell_plot, do;
      cbn [bind run app];
      repeat (first
        [ rewrite format_results_path; cbn [bind run app]
        | next_call; cbn [bind run app] ]);
      subst P; cbv beta
  end.

(** Evaluating what was read off a trace. *)
Ltac observe :=
  lazy beta iota zeta delta
    [trace_of result_of fst snd collect ev_call ev_out ev_pre ev_ret
     value_of world_of completed].

Ltac elems :=
  repeat match goal with
  | H : _ ∈ [] |- _ => apply elem_of_nil in H; destruct H
  | H : _ ∈ _ :: _ |- _ => apply elem_of_cons in H; destruct H as [H|H]
  end.

Ltac found := eauto 8 using list_elem_of_here, list_elem_of_further.

Ltac each := repeat first [apply Forall_nil_2 | apply Forall_cons_2].

(** * Properties of the notebook *)

Section NotebookFacts.

Context {model config buffer ext : Type}.
Variable lib : @Library model config buffer ext.

Local Open Scope string_scope.

(** A run of the notebook that does not complete has ended at a call that
    raised, with that call's exception -- or, both [predict] calls having
    raised under [%%time], with the [NameError] for the unbound [restored]
    at the export.  The notebook raises nothing else of its own. *)
Lemma notebook_stops_at_a_call (w : world) :
  let r := run lib notebook w in
  forall x w', result_of r = Raised x w' ->
    raised <$> last (trace_of r) = Some (Some (x, w'))
    \/ x = Py.NameError
       /\ (exists m img, predicted (trace_of r)
             = [(m, img, "ZYX", None, None); (m, img, "ZYX", Some [1; 4; 4], None)])
       /\ stages (trace_of r) = [Download; LoadModel; PredictTiled].
Proof.
  cbv zeta. all_runs.
  all: intros x w' H; cbn [result_of snd] in H; simplify_eq.
  all: first [ left; reflexivity
             | right; split; [reflexivity|]; split; [do 2 eexists|]; reflexivity ].
Qed.


(** C1: in every run the stages happen in the listed order -- download
    into ['data'], model construction, [predict] with [n_tiles], TIFF
    export, figure with the restored image -- none before its predecessor,
    and they are performed: a completed run has gone through all five, and
    a run stops short of one only where a call has raised, the run ending
    with that call's exception (or, both [predict] calls having raised under
    [%%time], with the [NameError] for [restored] at the export). *)
Theorem steps_in_listed_order (w : world) :
  let r := run lib notebook w in
  stages (trace_of r) `prefix_of` listed_order
  /\ (completed (result_of r) -> stages (trace_of r) = listed_order)
  /\ (forall x w', result_of r = Raised x w' ->
        raised <$> last (trace_of r) = Some (Some (x, w'))
        \/ x = Py.NameError
           /\ (exists m img, predicted (trace_of r)
                 = [(m, img, "ZYX", None, None); (m, img, "ZYX", Some [1; 4; 4], None)])
           /\ stages (trace_of r) = [Download; LoadModel; PredictTiled]).
Proof.
  cbv zeta. apply and_assoc. split; [|apply notebook_stops_at_a_call].
  all_runs.
  all: split; [lazy; eexists; reflexivity|].
  all: lazy; intros H; first [contradiction H | reflexivity].
Qed.


(** C3: each of the two restoration statements is the library's [predict]
    applied to the model, the stack and the axes (the second with
    [n_tiles=(1,4,4)]): one call, whose outcome -- value, world left behind,
    or exception -- is the outcome of the statement.  In the notebook these
    are the only [predict] calls, on the loaded model and the raw stack;
    under [%%time] each cell still makes the one call and binds what it
    returned, unchanged; and [restored] ends up bound to what the second
    call returned, or to what the first returned when the second raised. *)
Theorem restoration_is_library_predict (w : world) :
  (forall m x axes w1,
     run lib (cell_predict m x axes) w1 = library_predict lib m x axes None w1
     /\ run lib (cell_predict_tiled m x axes) w1
        = library_predict lib m x axes (Some [1; 4; 4]) w1)
  /\ let r := run lib notebook w in
     (forall m x axes n_tiles o, (m, x, axes, n_tiles, o) ∈ predicted (trace_of r) ->
        axes = "ZYX"
        /\ (n_tiles = None \/ n_tiles = Some [1; 4; 4])
        /\ (None, "my_model", "models", Some m) ∈ constructed (trace_of r)
        /\ exists wx, ("data/flywing/low_C3/session_7_P17.tif", Some x, wx) ∈ loaded (trace_of r))
     /\ (forall ns w', result_of r = Returned ns w' ->
        exists o1 o2, predicted (trace_of r) =
          [(ns_model ns, ns_x ns, "ZYX", None, o1);
           (ns_model ns, ns_x ns, "ZYX", Some [1; 4; 4], o2)]
          /\ Some (ns_restored ns) = match o2 with Some r2 => Some r2 | None => o1 end)
     /\ (forall m x axes n_tiles w1 cell,
        (n_tiles = None /\ cell = cell_predict m x axes
         \/ n_tiles = Some [1; 4; 4] /\ cell = cell_predict_tiled m x axes) ->
        let o := lib_predict lib m x axes n_tiles w1 in
        predicted (trace_of (run lib (timed cell) w1)) = [(m, x, axes, n_tiles, value_of o)]
        /\ (forall bound w2, result_of (run lib (timed cell) w1) = Returned bound w2 ->
            bound = value_of o)).
Proof.
  split.
  - intros m x axes w1. unfold cell_predict, cell_predict_tiled, library_predict, do.
    cbn [run handle].
    split; [destruct (lib_predict lib m x axes None w1)
           |destruct (lib_predict lib m x axes (Some [1; 4; 4]) w1)]; reflexivity.
  - cbv zeta. split; [|split].
    + all_runs.
      all: unfold predicted, constructed, loaded; observe.
      all: intros; elems; simplify_eq.
      all: repeat split; found.
    + all_runs.
      all: unfold predicted, constructed, loaded; observe.
      all: intros; simplify_eq.
      all: by do 2 eexists.
    + intros m x axes n_tiles w1 cell [[-> ->]|[-> ->]].
      all: unfold timed, cell_predict, cell_predict_tiled, do; cbn [run handle bind app].
      all: destruct (lib_predict lib m x axes _ w1) as [r2 w2|e w2]; cbn [run handle bind app].
      all: match goal with
           | |- context [lib_time_report ?l ?w] => destruct (lib_time_report l w)
           | |- context [lib_time_failed ?l ?e ?w] => destruct (lib_time_failed l e w)
           end.
      all: unfold predicted, constructed, loaded; observe; split; [reflexivity|]; intros; by simplify_eq.
Qed.


(** C6: the file the restored image is written to is ['results/'], then
    what [model.name] yields on the loaded model, then
    ['_denoising+projection_example.tif']; for the name ['my_model'] that
    is ['results/my_model_denoising+projection_example.tif']. *)
Theorem output_file_path (w : world) :
  let t := trace_of (run lib notebook w) in
  forall f img ax, (f, img, ax) ∈ saved t ->
    exists m name,
      constructed t = [(None, "my_model", "models", Some m)]
      /\ names_read t = [(m, Some name)]
      /\ f = "results/" +:+ name +:+ "_denoising+projection_example.tif"
      /\ (name = "my_model" -> f = "results/my_model_denoising+projection_example.tif").
Proof.
  cbv zeta. all_runs.
  all: unfold saved, constructed, names_read; observe.
  all: intros; elems; simplify_eq.
  all: do 2 eexists; repeat split; by intros ->.
Qed.




(** X1: the download call, with the flywing URL and target directory
    ['data'], is made as soon as the nine imports and magics of the first
    cell have returned, and is the only one; when one of those raises
    nothing is downloaded and the run ends with that call's exception; when
    the download raises, nothing is read and the run does not complete. *)
Theorem download_once_and_first (w : world) :
  let r := run lib notebook w in
  let t := trace_of r in
  (downloads t = [] /\ past_setup t = []
   /\ exists x w', result_of r = Raised x w' /\ raised <$> last t = Some (Some (x, w')))
  \/ exists o,
       downloads t
       = [("http://csbdeep.bioimagecomputing.com/example_data/flywing.zip", "data", o)]
       /\ stage_of <$> head (past_setup t) = Some (Some Download)
       /\ length t = 9 + length (past_setup t)
       /\ (o = None ->
           length (past_setup t) = 1 /\ loaded t = [] /\ ~ completed (result_of r)).
Proof.
  cbv zeta. all_runs.
  all: first
    [ left; lazy; split; [reflexivity|]; split; [reflexivity|];
      do 2 eexists; split; reflexivity
    | right; eexists; split; [reflexivity|]; split; [reflexivity|];
      split; [reflexivity|]; lazy; intros Hraised;
      first [ discriminate Hraised | split; [reflexivity|]; split; [reflexivity|]; intros [] ] ].
Qed.

(** X3: the notebook prints at most three lines, in this order: the
    source image size, the source image axes ['ZYX'], the target image
    size.  The source size printed is what [x.shape] gave for the array
    read from the low-SNR file, the target size what [y.shape] gave for the
    array read from the ground-truth file. *)
Theorem prints_report_sizes_and_axes (w : world) :
  let t := trace_of (run lib notebook w) in
  exists sx sy,
    printed t `prefix_of`
      [[PStr "source image size ="; PTuple sx];
       [PStr "source image axes ="; PStr "ZYX"];
       [PStr "target image size ="; PTuple sy]]
    /\ (printed t <> [] ->
        exists x wx, ("data/flywing/low_C3/session_7_P17.tif", Some x, wx) ∈ loaded t
                     /\ (x, Some sx) ∈ shapes_read t)
    /\ (length (printed t) = 3 ->
        exists y wy, ("data/flywing/GT/session_7_P17.tif", Some y, wy) ∈ loaded t
                     /\ (y, Some sy) ∈ shapes_read t).
Proof.
  cbv zeta. all_runs.
  all: unfold printed, loaded, shapes_read; observe.
  all: first
    [ exists [], []; split; [apply prefix_nil|]; split; [done | discriminate]
    | eexists _, []; split; [eexists; reflexivity|]; split; [|discriminate];
      intros _; do 2 eexists; split; found
    | do 2 eexists; split; [eexists; reflexivity|]; split;
      intros _; do 2 eexists; split; found ].
Qed.

(** X4: the figures come in the order pair, triple; each shows a stack
    that has as many images as the figure has titles, whose first image is
    the raw stack and whose last is the ground truth broadcast to a shape
    read from the raw stack. *)
Theorem figures_match_their_titles (w : world) :
  let t := trace_of (run lib notebook w) in
  snd <$> plotted t `prefix_of` [titles_pair; titles_triple]
  /\ Forall (fun '(st, titles) =>
       exists arrs x y wx wy sx by_,
         (arrs, Some st) ∈ stacks t
         /\ length <$> titles = [length arrs]
         /\ head arrs = Some x /\ last arrs = Some by_
         /\ (y, sx, Some by_) ∈ broadcasts t
         /\ (x, Some sx) ∈ shapes_read t
         /\ ("data/flywing/low_C3/session_7_P17.tif", Some x, wx) ∈ loaded t
         /\ ("data/flywing/GT/session_7_P17.tif", Some y, wy) ∈ loaded t)
     (plotted t).
Proof.
  cbv zeta. all_runs.
  all: unfold plotted, stacks, broadcasts, shapes_read, loaded; observe.
  all: split; [eexists; reflexivity|]; each.
  all: do 7 eexists; repeat split; found.
Qed.

(** X5: every [np.broadcast_to] call targets a shape that [x.shape] gave
    for the raw stack, and what it broadcasts is the ground-truth image or
    an array that a [predict] call on the raw stack returned. *)
Theorem broadcasts_use_raw_shape (w : world) :
  let t := trace_of (run lib notebook w) in
  Forall (fun '(a, shp, r) =>
    exists x wx,
      ("data/flywing/low_C3/session_7_P17.tif", Some x, wx) ∈ loaded t
      /\ (x, Some shp) ∈ shapes_read t
      /\ ((exists wy, ("data/flywing/GT/session_7_P17.tif", Some a, wy) ∈ loaded t)
          \/ (exists m n_tiles, (m, x, "ZYX", n_tiles, Some a) ∈ predicted t)))
    (broadcasts t).
Proof.
  cbv zeta. all_runs.
  all: unfold broadcasts, loaded, shapes_read, predicted; observe.
  all: each.
  all: do 2 eexists; split; [found|]; split; [found|].
  all: first [ left; eexists; solve [found] | right; do 2 eexists; solve [found] ].
Qed.

(** X6: the TIFF export is attempted only after [mkdir] has returned,
    leaving ['results'] a directory.  When ['results'] is a regular file,
    [mkdir] raises [FileExistsError] despite [exist_ok=True], the run ends
    with that exception, and neither [model.name] is read nor anything
    saved. *)
Theorem save_needs_results_directory (w : world) :
  let r := run lib notebook w in
  let t := trace_of r in
  (saved t <> [] ->
     exists pre w', mkdirs t = [(pre, "results", true, Returned tt w')]
                    /\ files w' !! "results" = Some Py.Dir)
  /\ (forall pre out, mkdirs t = [(pre, "results", true, out)] ->
      files pre !! "results" = Some Py.File ->
      out = Raised Py.FileExistsError pre
      /\ saved t = [] /\ names_read t = []
      /\ result_of r = Raised Py.FileExistsError pre).
Proof.
  cbv zeta. all_runs.
  all: unfold saved, mkdirs, names_read; observe.
  all: split; [intros Hsaved; try done | intros pre out Hmk Hfile; try discriminate Hmk].
  all: try match goal with
       | E : handle _ (Path_mkdir "results" true) _ = Returned ?u _ |- _ => destruct u
       end.
  all: try (do 2 eexists; split; [reflexivity|];
            match goal with
            | E : handle _ (Path_mkdir "results" true) _ = _ |- _ =>
                exact (path_mkdir_creates _ _ _ _ E)
            end).
  all: simplify_eq.
  all: match goal with
       | E : handle _ (Path_mkdir "results" true) ?pre = _ |- _ =>
           change (handle lib (Path_mkdir "results" true) pre)
             with (path_mkdir "results" true pre) in E;
           rewrite (path_mkdir_on_file _ _ _ Hfile) in E
       end.
  all: by simplify_eq.
Qed.

(** X8: the axes written with the restored image have one axis fewer
    than ['ZYX'] exactly when [model.proj_params.axis] is ['Z'], ['Y'] or
    ['X']; when it is no part of ['ZYX'] at all, the axes written are
    ['ZYX'] unchanged. *)
Theorem restored_axes_one_fewer_iff (w : world) :
  let t := trace_of (run lib notebook w) in
  Forall (fun '(f, img, axes_restored) =>
    exists m axis,
      axes_read t = [(m, Some axis)]
      /\ axes_restored = Py.replace "ZYX" axis ""
      /\ (String.length axes_restored + 1 = String.length "ZYX"
          <-> axis ∈ ["Z"; "Y"; "X"])
      /\ (axis ∉ ["Z"; "Y"; "X"; "ZY"; "YX"; "ZYX"] -> axes_restored = "ZYX"))
    (saved t).
Proof.
  cbv zeta. all_runs.
  all: unfold saved, axes_read; observe.
  all: each.
  all: do 2 eexists; split; [reflexivity|]; split; [reflexivity|]; split.
  all: first [ apply replace_one_fewer_iff | apply replace_foreign ].
Qed.

(** X9: the save cell, for any model, axes string and image: the image
    exported is the one given, the axes exported are never longer than the
    axes given, and for a one-letter projection axis they are the given
    axes with that letter dropped wherever it occurs, the others in
    order. *)
Theorem cell_save_drops_axis (m : model) (axes : string) (restored : nat) (w : world) :
  let t := trace_of (run lib (cell_save m axes restored) w) in
  Forall (fun '(f, img, axes_restored) =>
    img = restored
    /\ String.length axes_restored <= String.length axes
    /\ exists axis,
         axes_read t = [(m, Some axis)]
         /\ axes_restored = Py.replace axes axis ""
         /\ (forall c, axis = String c "" -> axes_restored = Py.without c axes))
    (saved t).
Proof.
  cbv zeta. all_runs.
  all: unfold saved, axes_read; observe.
  all: each.
  all: split; [reflexivity|]; split; [apply replace_removal_bound|].
  all: eexists; split; [reflexivity|]; split; [reflexivity|].
  all: intros c ->; apply replace_letter_is_without.
Qed.

(** X10: when both [predict] calls have raised and [%%time] has let the
    run go on, nothing is saved and the run does not complete; if it gets
    as far as reading [model.name], it has made ['results'] and read the
    projection axis, and it ends with [NameError], [restored] being
    unbound. *)
Theorem save_cell_without_restored (w : world) :
  let r := run lib notebook w in
  let t := trace_of r in
  forall m x,
    predicted t = [(m, x, "ZYX", None, None); (m, x, "ZYX", Some [1; 4; 4], None)] ->
    saved t = [] /\ ~ completed (result_of r)
    /\ (forall name, names_read t = [(m, Some name)] ->
        (exists pre w1, mkdirs t = [(pre, "results", true, Returned tt w1)])
        /\ (exists axis, axes_read t = [(m, Some axis)])
        /\ exists w', result_of r = Raised Py.NameError w').
Proof.
  cbv zeta. all_runs.
  all: unfold predicted, saved, names_read, mkdirs, axes_read; observe.
  all: intros m x Hpred; try discriminate Hpred; simplify_eq.
  all: split; [reflexivity|]; split; [intros []|].
  all: intros name Hname; try discriminate Hname; simplify_eq.
  all: repeat match goal with u : unit |- _ => destruct u end.
  all: split; [by do 2 eexists|]; split; by eexists.
Qed.

End NotebookFacts.

(** * Loading the model *)

Section PretrainedFacts.

Context {config weights buffer ext : Type}.
Variable training_output : ext -> string -> string -> option (config * weights).
Variable lib : @Library (pretrained config weights) config buffer ext.

Local Open Scope string_scope.

(** C5: the notebook constructs its model once, as
    [ProjectionCARE(config=None, name='my_model', basedir='models')],
    passing no configuration; the model so obtained carries the
    configuration and the weights that training left on disk under
    [models/my_model], every later call on a model is made on it, and when
    there is nothing on disk the constructor raises and no prediction is
    made. *)
Theorem model_comes_from_disk (w : world) :
  let r := run (with_pretrained_models training_output lib) notebook w in
  let t := trace_of r in
  (constructions t = [] ->
     exists x w', result_of r = Raised x w' /\ raised <$> last t = Some (Some (x, w')))
  /\ Forall (fun '(pre, cfg, name, basedir, o) =>
       cfg = None /\ name = "my_model" /\ basedir = "models"
       /\ match o with
          | Some m =>
              training_output (ext_state pre) "models" "my_model"
              = Some (pm_config m, pm_weights m)
              /\ Forall (eq m) (models_used t)
          | None =>
              training_output (ext_state pre) "models" "my_model" = None
              /\ models_used t = [] /\ ~ completed (result_of r)
          end)
      (constructions t)
  /\ (forall ns w', result_of r = Returned ns w' ->
        exists pre, constructions t = [(pre, None, "my_model", "models", Some (ns_model ns))]).
Proof.
  cbv zeta. all_runs.
  all: unfold constructions, models_used, raised; observe.
  all: split; [first [ discriminate | intros _; do 2 eexists; split; reflexivity ]|].
  all: split; [|intros ns w' H; simplify_eq; by eexists].
  all: each.
  all: split; [done|]; split; [done|]; split; [done|].
  all: match goal with
       | E : handle _ (ProjectionCARE None "my_model" "models") ?pre = _ |- _ =>
           cbn [handle with_pretrained_models lib_ProjectionCARE] in E;
           unfold ProjectionCARE_from_disk in E;
           destruct (training_output (ext_state pre) "models" "my_model")
             as [[c wts]|] eqn:Hdisk;
           simplify_eq
       end.
  all: first [ split; [reflexivity|]; each; reflexivity
             | split; [reflexivity|]; split; [reflexivity|]; intros [] ].
Qed.

End PretrainedFacts.

(** * The notebook on the stand-in library *)



(** A complete run: every stage, in order. *)
Example stub_run_stages :
  stages (trace_of (run (Stub.lib "Z") notebook Stub.w0)) = listed_order.
Proof. vm_compute. reflexivity. Qed.

(** What it binds. *)
Example stub_run_namespace :
  value_of (result_of (run (Stub.lib "Z") notebook Stub.w0))
  = Some (Namespace 0 1 "ZYX" "my_model"%string 5 "YX").
Proof. vm_compute. reflexivity. Qed.

(** What it writes, and from which [predict] call. *)
Example stub_run_saved :
  saved (trace_of (run (Stub.lib "Z") notebook Stub.w0))
  = [("results/my_model_denoising+projection_example.tif"%string, 5, "YX"%string)]
  /\ predicted (trace_of (run (Stub.lib "Z") notebook Stub.w0))
     = [("my_model"%string, 1, "ZYX"%string, None, Some 4);
        ("my_model"%string, 1, "ZYX"%string, Some [1; 4; 4], Some 5)].
Proof. split; vm_compute; reflexivity. Qed.

(** A second run, in the world the first one left, ['results'] and all,
    completes too. *)
Example stub_run_twice :
  let w1 := world_of (result_of (run (Stub.lib "Z") notebook Stub.w0)) in
  files w1 !! "results"%string = Some Py.Dir
  /\ stages (trace_of (run (Stub.lib "Z") notebook w1)) = listed_order.
Proof. split; vm_compute; reflexivity. Qed.

(** With ['results'] a regular file, [mkdir] raises and the run ends there. *)
Example stub_run_results_is_a_file :
  let w := World {["results"%string := Py.File]} ∅ tt in
  stages (trace_of (run (Stub.lib "Z") notebook w)) = [Download; LoadModel; PredictTiled]
  /\ value_of (result_of (run (Stub.lib "Z") notebook w)) = None.
Proof. split; vm_compute; reflexivity. Qed.

(** A projection axis that is not an axis of the stack removes nothing. *)
Example stub_run_foreign_axis :
  saved (trace_of (run (Stub.lib "T") notebook Stub.w0))
  = [("results/my_model_denoising+projection_example.tif"%string, 5, "ZYX"%string)].
Proof. vm_compute. reflexivity. Qed.

(** The first [predict] call runs out of memory, [%%time] reports it, and
    the notebook goes on: what is saved is the tiled call's result. *)
Example stub_run_first_predict_fails :
  let r := run (Stub.out_of_memory (fun n => bool_decide (n = None)) "Z") notebook Stub.w0 in
  stages (trace_of r) = listed_order
  /\ timings (trace_of r) = [Some (Py.LibraryError "ResourceExhaustedError"); None]
  /\ predicted (trace_of r)
     = [("my_model"%string, 1, "ZYX"%string, None, None);
        ("my_model"%string, 1, "ZYX"%string, Some [1; 4; 4], Some 4)]
  /\ saved (trace_of r)
     = [("results/my_model_denoising+projection_example.tif"%string, 4, "YX"%string)].
Proof. repeat split; vm_compute; reflexivity. Qed.

(** The tiled call runs out of memory instead: what is saved is the first
    call's result. *)
Example stub_run_tiled_predict_fails :
  let r := run (Stub.out_of_memory (fun n => bool_decide (n <> None)) "Z") notebook Stub.w0 in
  stages (trace_of r) = listed_order
  /\ predicted (trace_of r)
     = [("my_model"%string, 1, "ZYX"%string, None, Some 4);
        ("my_model"%string, 1, "ZYX"%string, Some [1; 4; 4], None)]
  /\ saved (trace_of r)
     = [("results/my_model_denoising+projection_example.tif"%string, 4, "YX"%string)].
Proof. repeat split; vm_compute; reflexivity. Qed.

(** Nothing trained on disk: the constructor raises and the run ends. *)
Example stub_run_untrained :
  let r := run (with_pretrained_models Stub.untrained (Stub.lib_pretrained "Z"))
             notebook Stub.w0 in
  stages (trace_of r) = [Download; LoadModel]
  /\ predicted (trace_of r) = []
  /\ (exists w', result_of r = Raised Py.FileNotFoundError w').
Proof. repeat split; [vm_compute; reflexivity..|]. eexists. vm_compute. reflexivity. Qed.

(** ** The claims on concrete runs *)





Lemma model_comes_from_disk_witness :
  let r := run (with_pretrained_models Stub.trained (Stub.lib_pretrained "Z"))
             notebook Stub.w0 in
  exists ns w' pre,
    result_of r = Returned ns w'
    /\ constructions (trace_of r) = [(pre, None, "my_model"%string, "models"%string, Some (ns_model ns))]
    /\ Stub.trained (ext_state pre) "models" "my_model"
       = Some (pm_config (ns_model ns), pm_weights (ns_model ns)).
Proof.
  cbv zeta.
  destruct (model_comes_from_disk Stub.trained (Stub.lib_pretrained "Z") Stub.w0)
    as (_ & Hall & Hdone).
  destruct (result_of (run (with_pretrained_models Stub.trained (Stub.lib_pretrained "Z"))
                         notebook Stub.w0)) as [ns w'|e w'] eqn:E.
  - destruct (Hdone ns w' eq_refl) as (pre & Hcons).
    exists ns, w', pre. split; [reflexivity|]. split; [exact Hcons|].
    rewrite Hcons in Hall. apply Forall_cons_1 in Hall as [(_ & _ & _ & Hdisk & _) _].
    exact Hdisk.
  - vm_compute in E. discriminate E.
Defined.

Lemma output_file_path_witness :
  let t := trace_of (run (Stub.lib "Z") notebook Stub.w0) in
  ("results/my_model_denoising+projection_example.tif"%string, 5, "YX"%string) ∈ saved t
  /\ exists (m name : string),
       constructed t = [(None, "my_model"%string, "models"%string, Some m)]
       /\ names_read t = [(m, Some name)]
       /\ "results/my_model_denoising+projection_example.tif"%string
          = ("results/" +:+ name +:+ "_denoising+projection_example.tif")%string
       /\ (name = "my_model"%string ->
           "results/my_model_denoising+projection_example.tif"%string
           = "results/my_model_denoising+projection_example.tif"%string).
Proof.
  cbv zeta.
  assert (Hin : ("results/my_model_denoising+projection_example.tif"%string, 5, "YX"%string)
                ∈ saved (trace_of (run (Stub.lib "Z") notebook Stub.w0))).
  { vm_compute. apply list_elem_of_here. }
  split; [exact Hin|].
  exact (output_file_path (Stub.lib "Z") Stub.w0 _ _ _ Hin).
Defined.





Lemma save_cell_without_restored_witness :
  let r := run (Stub.out_of_memory (fun _ => true) "Z") notebook Stub.w0 in
  predicted (trace_of r)
  = [("my_model"%string, 1, "ZYX"%string, None, None);
     ("my_model"%string, 1, "ZYX"%string, Some [1; 4; 4], None)]
  /\ saved (trace_of r) = []
  /\ ~ completed (result_of r)
  /\ (exists pre w1, mkdirs (trace_of r) = [(pre, "results"%string, true, Returned tt w1)])
  /\ (exists w', result_of r = Raised Py.NameError w').
Proof.
  cbv zeta.
  set (r := run _ _ _).
  assert (Hpred : predicted (trace_of r)
                  = [("my_model"%string, 1, "ZYX"%string, None, None);
                     ("my_model"%string, 1, "ZYX"%string, Some [1; 4; 4], None)]).
  { vm_compute. reflexivity. }
  destruct (save_cell_without_restored (Stub.out_of_memory (fun _ => true) "Z") Stub.w0
              _ _ Hpred) as (Hsaved & Hnot & Hname).
  fold r in Hsaved, Hnot, Hname.
  assert (Hread : names_read (trace_of r) = [("my_model"%string, Some "my_model"%string)]).
  { vm_compute. reflexivity. }
  destruct (Hname _ Hread) as (Hmk & _ & Herr).
  by repeat split.
Defined.
